(** * go-logging: the Windows console backend (log_windows.go)

    A shallow embedding of [LogBackend] and of the colour bracketing that its
    [Log] method performs around [Logger.Output], together with the
    attribute tables [colors] and [boldcolors] and the helpers
    [setConsoleTextAttribute] and [checkError]. *)

From Stdlib Require Import ZArith List String Bool Lia.
From Stdlib Require Import Strings.Byte.
Import ListNotations.
Local Open Scope Z_scope.

(** ** The fragment of Go the file relies on *)

Module Go.

(** [int] on windows/amd64: 64-bit two's complement, addition wraps. *)
Definition intSize : Z := 64.

Definition wrap_int (x : Z) : Z :=
  (x + 2 ^ (intSize - 1)) mod 2 ^ intSize - 2 ^ (intSize - 1).

Definition int_add (a b : Z) : Z := wrap_int (a + b).

(** [uint16] and [uintptr] conversions of a non-negative constant. *)
Definition to_uint16 (x : Z) : Z := x mod 2 ^ 16.
Definition to_uintptr (x : Z) : Z := x mod 2 ^ intSize.

(** Values of the [error] interface; [nil] is [None] of [option error].
    [EINVAL] stands for [syscall.EINVAL], [Errno] for any other
    [syscall.Errno] and [errorString] for the errors of package [errors]. *)
Inductive error : Type :=
| EINVAL
| Errno (code : Z)
| errorString (msg : string).

(** A call either returns or unwinds with a run-time panic. *)
Inductive panic : Type :=
| IndexOutOfRange (i : Z) (len : Z)
| NilDereference.

Inductive outcome (A : Type) : Type :=
| Returned (a : A)
| Panicked (p : panic).
Arguments Returned {A} a.
Arguments Panicked {A} p.

(** *** Slices

    A keyed composite literal [[]T{k1: v1, ..., kn: vn}] has length
    (highest key) + 1; the elements no key names hold the zero value. *)
Section Slices.
Context {A : Type} (zero : A).

Definition lit_len (kvs : list (Z * A)) : Z :=
  fold_right (fun kv n => Z.max (fst kv + 1) n) 0 kvs.

Definition lit_at (kvs : list (Z * A)) (i : Z) : A :=
  match find (fun kv => fst kv =? i) kvs with
  | Some kv => snd kv
  | None => zero
  end.

Definition keyed_lit (kvs : list (Z * A)) : list A :=
  map (fun n => lit_at kvs (Z.of_nat n)) (seq 0 (Z.to_nat (lit_len kvs))).

Definition len (s : list A) : Z := Z.of_nat (List.length s).

(** [s[i]]: the element, or the run-time panic of an index out of range. *)
Definition index (s : list A) (i : Z) : outcome A :=
  if (0 <=? i) && (i <? len s)
  then Returned (nth (Z.to_nat i) s zero)
  else Panicked (IndexOutOfRange i (len s)).

(** What the compiler demands of the keys of a slice literal: constant,
    non-negative, no key twice. *)
Definition valid_keys (kvs : list (Z * A)) : Prop :=
  NoDup (map fst kvs) /\ Forall (fun kv => 0 <= fst kv) kvs.
End Slices.

(** *** Strings and [bytes.Buffer]

    A Go string is a sequence of bytes; [[]byte(s)] copies them out. *)
Definition bytes_of (s : string) : list byte := list_byte_of_string s.

Record Buffer : Type := { buf : list byte }.

Definition Buffer_zero : Buffer := {| buf := [] |}.

(** [Write] appends; its results ([len(p)], [nil]) are dropped by the caller. *)
Definition Buffer_Write (b : Buffer) (p : list byte) : Buffer :=
  {| buf := buf b ++ p |}.

Definition Buffer_String (b : Buffer) : string := string_of_list_byte (buf b).

End Go.
Import Go.

(** ** Character attributes *)

(** [type color int], [type word uint16] and, from level.go,
    [type Level int]. *)
Definition color : Type := Z.
Definition word : Type := Z.
Definition Level : Type := Z.

Definition fgBlack : word := 0x0000.
Definition fgBlue : word := 0x0001.
Definition fgGreen : word := 0x0002.
Definition fgCyan : word := 0x0003.
Definition fgRed : word := 0x0004.
Definition fgMagenta : word := 0x0005.
Definition fgYellow : word := 0x0006.
Definition fgWhite : word := 0x0007.
Definition fgIntensity : word := 0x0008.
Definition fgMask : word := 0x000F.

(** [a | b] on [word]. *)
Definition word_or (a b : word) : word := to_uint16 (Z.lor a b).

(** The six level constants are declared in level.go, which is not part
    of log_windows.go; they are taken as parameters of the development. *)
Class LevelConsts : Type := {
  CRITICAL : Level;
  ERROR : Level;
  WARNING : Level;
  NOTICE : Level;
  INFO : Level;
  DEBUG : Level
}.

Section Tables.
Context {LC : LevelConsts}.

Definition colors_lit : list (Z * word) :=
  [ (INFO, fgWhite);
    (CRITICAL, fgMagenta);
    (ERROR, fgRed);
    (WARNING, fgYellow);
    (NOTICE, fgGreen);
    (DEBUG, fgCyan) ].

Definition boldcolors_lit : list (Z * word) :=
  [ (INFO, word_or fgWhite fgIntensity);
    (CRITICAL, word_or fgMagenta fgIntensity);
    (ERROR, word_or fgRed fgIntensity);
    (WARNING, word_or fgYellow fgIntensity);
    (NOTICE, word_or fgGreen fgIntensity);
    (DEBUG, word_or fgCyan fgIntensity) ].

Definition colors : list word := keyed_lit 0 colors_lit.
Definition boldcolors : list word := keyed_lit 0 boldcolors_lit.

(** The levels the framework defines. *)
Definition defined_levels : list Level :=
  [DEBUG; NOTICE; WARNING; ERROR; CRITICAL; INFO].

(** The compiler accepts the two literals only if their keys, which are the
    same six constants in both, are valid. *)
Definition levels_wf : Prop := valid_keys colors_lit.
End Tables.

(** ** Writers, files and the standard logger *)

(** [type file interface { Fd() uintptr }]. *)
Record file : Type := { Fd : Z }.

(** An [io.Writer] value: [nil], a writer whose dynamic type has no [Fd]
    method, or one that has it. *)
Inductive Writer : Type :=
| nilWriter
| plainWriter (name : string)
| fileWriter (fl : file).

(** The type assertion [out.(file)] with its [ok] flag. *)
Definition assert_file (out : Writer) : option file * bool :=
  match out with
  | fileWriter fl => (Some fl, true)
  | _ => (None, false)
  end.

(** [*log.Logger] as [log.New] builds it. *)
Record log_Logger : Type := {
  log_out : Writer;
  log_prefix : string;
  log_flag : Z
}.

Definition log_New (out : Writer) (prefix : string) (flag : Z) : log_Logger :=
  {| log_out := out; log_prefix := prefix; log_flag := flag |}.

(** [LogBackend utilizes the standard log module.] *)
Record LogBackend : Type := {
  Logger : log_Logger;
  Color : bool;
  f : option file
}.

Definition set_f (b : LogBackend) (v : option file) : LogBackend :=
  {| Logger := Logger b; Color := Color b; f := v |}.

Definition set_Color (b : LogBackend) (v : bool) : LogBackend :=
  {| Logger := Logger b; Color := v; f := f b |}.

(** [NewLogBackend creates a new LogBackend.] *)
Definition NewLogBackend (out : Writer) (prefix : string) (flag : Z) : LogBackend :=
  let b := {| Logger := log_New out prefix flag; Color := false; f := None |} in
  match assert_file out with
  | (fl, true) => set_f b fl
  | (_, false) => b
  end.

(** The condition [b.Color && b.f != nil] as a function of the receiver. *)
Definition colorable (b : LogBackend) : bool :=
  Color b && match f b with Some _ => true | None => false end.

(** ** The collaborators and the calls made to them *)

Section Backend.
(** [Record] of the logging framework. *)
Context {LogRecord : Type}.

(** A call that leaves this file. *)
Inductive event : Type :=
| EvFormatted (rec : LogRecord) (calldepth : Z)
| EvOutput (lg : log_Logger) (calldepth : Z) (s : string)
| EvCall (a1 a2 a3 : Z).

(** Modelled from the spec: [Record.Formatted] is not in log_windows.go;
    the formatter is pure and does not fail, so its text is a function of
    the record and the call depth. [Logger.Output] (package log) and
    [LazyProc.Call] (package syscall) answer as the world decides, given
    every call made so far. *)
Class Collaborators : Type := {
  formatted_text : LogRecord -> Z -> string;
  output_result : list event -> log_Logger -> Z -> string -> option error;
  call_result : list event -> Z -> Z -> Z -> Z * Z * option error
}.

Context {LC : LevelConsts} {W : Collaborators}.

(** The receiver [*b] and the calls made so far, oldest first. *)
Record State : Type := {
  self : LogBackend;
  trace : list event
}.

Definition M (A : Type) : Type := State -> outcome A * State.

Definition ret {A} (a : A) : M A := fun st => (Returned a, st).

Definition bind {A B} (m : M A) (k : A -> M B) : M B :=
  fun st =>
    match m st with
    | (Returned a, st') => k a st'
    | (Panicked p, st') => (Panicked p, st')
    end.

Definition lift {A} (o : outcome A) : M A := fun st => (o, st).

Definition field {A} (proj : LogBackend -> A) : M A :=
  fun st => (Returned (proj (self st)), st).

Definition emit (e : event) : M unit :=
  fun st => (Returned tt, {| self := self st; trace := trace st ++ [e] |}).

Definition history : M (list event) := fun st => (Returned (trace st), st).
End Backend.

Arguments event : clear implicits.
Arguments State : clear implicits.
Arguments M : clear implicits.
Arguments Collaborators : clear implicits.

Declare Scope go_scope.
Notation "x <- m ;; k" := (bind m (fun x => k))
  (at level 61, m at next level, right associativity) : go_scope.
Notation "m ;;; k" := (bind m (fun _ => k))
  (at level 61, right associativity) : go_scope.
Local Open Scope go_scope.

Section Methods.
Context {LogRecord : Type} {LC : LevelConsts} {W : Collaborators LogRecord}.

(** [rec.Formatted(calldepth)]. *)
Definition Formatted (rec : LogRecord) (calldepth : Z) : M LogRecord string :=
  emit (EvFormatted rec calldepth) ;;;
  ret (formatted_text rec calldepth).

(** [lg.Output(calldepth, s)]. *)
Definition Output (lg : log_Logger) (calldepth : Z) (s : string)
  : M LogRecord (option error) :=
  h <- history ;;
  emit (EvOutput lg calldepth s) ;;;
  ret (output_result h lg calldepth s).

(** [setConsoleTextAttributeProc.Call(a1, a2, a3)]. *)
Definition Call (a1 a2 a3 : Z) : M LogRecord (Z * Z * option error) :=
  h <- history ;;
  emit (EvCall a1 a2 a3) ;;;
  ret (call_result h a1 a2 a3).

(** [fl.Fd()] on an interface value that may be [nil]. *)
Definition call_Fd (fl : option file) : M LogRecord Z :=
  match fl with
  | Some x => ret (Fd x)
  | None => lift (Panicked NilDereference)
  end.

(** [use is a no-op, but the compiler cannot see that it is.] *)
Definition use {A} (p : A) : M LogRecord unit := ret tt.

(** [checkError evaluates the results of a Windows API call and returns
    the error if it failed.] *)
Definition checkError (r1 r2 : Z) (err : option error) : option error :=
  (* Windows APIs return non-zero to indicate success *)
  if negb (r1 =? 0) then None
  else
    (* Return the error if provided, otherwise default to EINVAL *)
    match err with
    | Some e => Some e
    | None => Some EINVAL
    end.

(** [setConsoleTextAttribute sets the attributes of characters written to
    the console screen buffer by the WriteFile or WriteConsole function.] *)
Definition setConsoleTextAttribute (fl : option file) (attribute : word)
  : M LogRecord (option error) :=
  fd <- call_Fd fl ;;
  r <- Call fd (to_uintptr attribute) 0 ;;
  use attribute ;;;
  let '(r1, r2, err) := r in
  ret (checkError r1 r2 err).

(** [b.Color && b.f != nil]: the right operand is read only when the left
    one holds. *)
Definition color_path : M LogRecord bool :=
  c <- field Color ;;
  if c
  then bf <- field f ;; ret (match bf with Some _ => true | None => false end)
  else ret false.

(** [func (b *LogBackend) Log(level Level, calldepth int, rec *Record) error];
    the receiver is the [self] of the state. *)
Definition Log (level : Level) (calldepth : Z) (rec : LogRecord)
  : M LogRecord (option error) :=
  cond <- color_path ;;
  if cond then
    let buf := Buffer_zero in
    bf <- field f ;;
    attr <- lift (index 0 colors level) ;;
    setConsoleTextAttribute bf attr ;;;
    s <- Formatted rec (int_add calldepth 1) ;;
    let buf := Buffer_Write buf (bytes_of s) in
    (* For some reason, the Go logger arbitrarily decided "2" was the
       correct call depth... *)
    lg <- field Logger ;;
    err <- Output lg (int_add calldepth 2) (Buffer_String buf) ;;
    bf <- field f ;;
    setConsoleTextAttribute bf fgWhite ;;;
    ret err
  else
    lg <- field Logger ;;
    s <- Formatted rec (int_add calldepth 1) ;;
    Output lg (int_add calldepth 2) s.

(** *** What a client does with a backend over its lifetime *)

Inductive op : Type :=
| OpLog (level : Level) (calldepth : Z) (rec : LogRecord)
| OpSetColor (v : bool).

(** A client that recovers from a panic goes on with the state as the
    panic left it. *)
Definition run_op (o : op) (st : State LogRecord) : State LogRecord :=
  match o with
  | OpLog level calldepth rec => snd (Log level calldepth rec st)
  | OpSetColor v => {| self := set_Color (self st) v; trace := trace st |}
  end.

Definition run_ops (ops : list op) (st : State LogRecord) : State LogRecord :=
  fold_left (fun st o => run_op o st) ops st.
End Methods.

(** ** Reading a trace *)

Section Traces.
Context {LogRecord : Type}.

Definition formatter_calls (tr : list (event LogRecord)) : list (LogRecord * Z) :=
  flat_map (fun e => match e with EvFormatted r d => [(r, d)] | _ => [] end) tr.

Definition written_texts (tr : list (event LogRecord)) : list string :=
  flat_map (fun e => match e with EvOutput _ _ s => [s] | _ => [] end) tr.

Definition attribute_calls (tr : list (event LogRecord)) : list (Z * Z * Z) :=
  flat_map (fun e => match e with EvCall a1 a2 a3 => [(a1, a2, a3)] | _ => [] end) tr.

Definition is_call (e : event LogRecord) : bool :=
  match e with EvCall _ _ _ => true | _ => false end.

(** The trace with the attribute-control calls struck out. *)
Definition without_calls (tr : list (event LogRecord)) : list (event LogRecord) :=
  filter (fun e => negb (is_call e)) tr.

Definition start (b : LogBackend) : State LogRecord :=
  {| self := b; trace := [] |}.

(** The backend [b] with [b.Color = v], after the calls [tr]. *)
Definition at_color (b : LogBackend) (v : bool) (tr : list (event LogRecord))
  : State LogRecord :=
  {| self := set_Color b v; trace := tr |}.

(** The calls a computation adds to the trace it starts from. *)
Definition events_of {A} (m : M LogRecord A) (st : State LogRecord)
  : list (event LogRecord) :=
  skipn (List.length (trace st)) (trace (snd (m st))).

(** What the sink answered to each write among the calls [tr] made after
    the history [h]. *)
Fixpoint write_results {W : Collaborators LogRecord}
    (h tr : list (event LogRecord)) : list (option error) :=
  match tr with
  | [] => []
  | e :: tr' =>
      match e with
      | EvOutput lg d s => [output_result h lg d s]
      | _ => []
      end ++ write_results (h ++ [e]) tr'
  end.

(** The same collaborators, the console answering differently. *)
Definition with_call_result (W : Collaborators LogRecord)
    (cr : list (event LogRecord) -> Z -> Z -> Z -> Z * Z * option error)
  : Collaborators LogRecord :=
  {| formatted_text := @formatted_text _ W;
     output_result := @output_result _ W;
     call_result := cr |}.
End Traces.

(** ** A concrete world to run the backend in *)

Module Demo.

(** The order of declaration in level.go ([CRITICAL Level = iota], ...). *)
Definition levels : LevelConsts :=
  {| CRITICAL := 0; ERROR := 1; WARNING := 2; NOTICE := 3; INFO := 4; DEBUG := 5 |}.

(** Records are their message; the call depth picks the frame the
    formatter reports. *)
Definition format (rec : string) (calldepth : Z) : string :=
  String.append (if calldepth =? 0 then "log.go " else "main.go ") rec.

(** The pipe is closed and the handle is not a console: every write and
    every attribute call fails. *)
Definition broken : Collaborators string :=
  {| formatted_text := format;
     output_result := fun _ _ _ _ => Some (errorString "write: broken pipe");
     call_result := fun _ _ _ _ => (0, 0, Some (Errno 6)) |}.

(** A console: everything succeeds. *)
Definition console : Collaborators string :=
  {| formatted_text := format;
     output_result := fun _ _ _ _ => None;
     call_result := fun _ _ _ _ => (1, 0, Some (Errno 0)) |}.

Definition stdout : file := {| Fd := 7 |}.

Definition colored : LogBackend :=
  set_Color (NewLogBackend (fileWriter stdout) EmptyString 0) true.

Definition plain : LogBackend := NewLogBackend (fileWriter stdout) EmptyString 0.

Definition piped : LogBackend :=
  set_Color (NewLogBackend (plainWriter "pipe") EmptyString 0) true.

End Demo.

(** ** Sequences of calls on one backend *)

Section Sequences.
Context {LogRecord : Type} {LC : LevelConsts} {W : Collaborators LogRecord}.

(** The two attribute calls [Log] puts around one write on the handle
    [fd]: the colour, then [fgWhite]. *)
Definition bracket (fd : Z) (attr : word) : list (Z * Z * Z) :=
  [(fd, attr, 0); (fd, fgWhite, 0)].

(** [0 <= level && level < len(colors)], the test [colors[level]] makes. *)
Definition in_table (level : Level) : bool :=
  (0 <=? level) && (level <? len colors).

Definition op_in_table (o : @op LogRecord) : bool :=
  match o with
  | OpLog level _ _ => in_table level
  | OpSetColor _ => true
  end.

(** The text each [Log] of a sequence asks the formatter for. *)
Definition texts_of_ops (ops : list (@op LogRecord)) : list string :=
  flat_map (fun o => match o with
                     | OpLog _ calldepth rec =>
                         [formatted_text rec (int_add calldepth 1)]
                     | OpSetColor _ => []
                     end) ops.

(** The loggers the writes of a trace went through. *)
Definition output_loggers (tr : list (event LogRecord)) : list log_Logger :=
  flat_map (fun e => match e with EvOutput lg _ _ => [lg] | _ => [] end) tr.

(** The call depths a trace handed to the formatter and to the logger. *)
Definition formatter_depths (tr : list (event LogRecord)) : list Z :=
  flat_map (fun e => match e with EvFormatted _ d => [d] | _ => [] end) tr.

Definition output_depths (tr : list (event LogRecord)) : list Z :=
  flat_map (fun e => match e with EvOutput _ d _ => [d] | _ => [] end) tr.

(** What [Log] returns and the state it leaves, on the path without colour
    and on the path with colour. *)
Definition plain_run (level : Level) (calldepth : Z) (rec : LogRecord)
    (st : State LogRecord)
  : outcome (option error) * State LogRecord :=
  (Returned (output_result (trace st ++ [EvFormatted rec (int_add calldepth 1)])
               (Logger (self st)) (int_add calldepth 2)
               (formatted_text rec (int_add calldepth 1))),
   {| self := self st;
      trace := trace st ++
               [EvFormatted rec (int_add calldepth 1);
                EvOutput (Logger (self st)) (int_add calldepth 2)
                  (formatted_text rec (int_add calldepth 1))] |}).

Definition colored_run (level : Level) (calldepth : Z) (rec : LogRecord)
    (st : State LogRecord) (fl : file) (attr : word)
  : outcome (option error) * State LogRecord :=
  (Returned (output_result
               (trace st ++ [EvCall (Fd fl) attr 0;
                             EvFormatted rec (int_add calldepth 1)])
               (Logger (self st)) (int_add calldepth 2)
               (formatted_text rec (int_add calldepth 1))),
   {| self := self st;
      trace := trace st ++
               [EvCall (Fd fl) attr 0;
                EvFormatted rec (int_add calldepth 1);
                EvOutput (Logger (self st)) (int_add calldepth 2)
                  (formatted_text rec (int_add calldepth 1));
                EvCall (Fd fl) fgWhite 0] |}).

(** The three ways a call of [Log] can go. *)
Inductive Log_path (level : Level) (calldepth : Z) (rec : LogRecord)
    (st : State LogRecord) : Prop :=
| path_plain :
    colorable (self st) = false ->
    Log level calldepth rec st = plain_run level calldepth rec st ->
    Log_path level calldepth rec st
| path_colored fl attr :
    Color (self st) = true ->
    f (self st) = Some fl ->
    in_table level = true ->
    index 0 colors level = Returned attr ->
    0 <= attr < 8 ->
    Log level calldepth rec st = colored_run level calldepth rec st fl attr ->
    Log_path level calldepth rec st
| path_panic fl :
    Color (self st) = true ->
    f (self st) = Some fl ->
    in_table level = false ->
    Log level calldepth rec st
    = (Panicked (IndexOutOfRange level (len colors)), st) ->
    Log_path level calldepth rec st.

(** The same formatter, the sink and the console answering differently. *)
Definition with_answers
    (o : list (event LogRecord) -> log_Logger -> Z -> string -> option error)
    (c : list (event LogRecord) -> Z -> Z -> Z -> Z * Z * option error)
  : Collaborators LogRecord :=
  {| formatted_text := @formatted_text _ W;
     output_result := o;
     call_result := c |}.
End Sequences.

(** A day of the demo program: a line while colour is off, two lines with
    colour on, one of them at a level outside the table, a last line with
    colour off again. *)
Definition demo_day : list (@op string) :=
  [ OpLog 4 0 "start"%string;
    OpSetColor true;
    OpLog 1 0 "boom"%string;
    OpLog 9 0 "lost"%string;
    OpSetColor false;
    OpLog 5 0 "bye"%string ].

(** The same day without the call outside the table. *)
Definition demo_day_in_table : list (@op string) :=
  [ OpLog 4 0 "start"%string;
    OpSetColor true;
    OpLog 1 0 "boom"%string;
    OpSetColor false;
    OpLog 5 0 "bye"%string ].

(** * Properties *)

(** ** Slice literals *)

Section SliceFacts.
Context {A : Type} (zero : A).
Implicit Types (kvs : list (Z * A)) (k i : Z) (v : A).

Lemma lit_len_nonneg kvs : 0 <= lit_len kvs.
Proof.
  induction kvs as [|kv kvs IH]; simpl; lia.
Qed.

Lemma lit_len_above kvs k v : In (k, v) kvs -> k < lit_len kvs.
Proof.
  induction kvs as [|kv kvs IH]; simpl; [tauto|].
  intros [-> | Hin]; simpl; [lia|].
  specialize (IH Hin). lia.
Qed.

Lemma lit_at_key kvs k v :
  NoDup (map fst kvs) -> In (k, v) kvs -> lit_at zero kvs k = v.
Proof.
  unfold lit_at.
  induction kvs as [|[k' v'] kvs IH]; simpl; [tauto|].
  intros Hnd [Heq | Hin].
  - inversion Heq; subst. now rewrite Z.eqb_refl.
  - inversion Hnd as [|? ? Hnotin Hnd']; subst.
    destruct (Z.eqb_spec k' k) as [->|Hne].
    + exfalso. apply Hnotin.
      change k with (fst (k, v)). now apply in_map.
    + now apply IH.
Qed.

Lemma len_keyed_lit kvs : len (keyed_lit zero kvs) = lit_len kvs.
Proof.
  unfold len, keyed_lit.
  rewrite length_map, length_seq.
  apply Z2Nat.id, lit_len_nonneg.
Qed.

Lemma nth_keyed_lit kvs i :
  0 <= i < lit_len kvs ->
  nth (Z.to_nat i) (keyed_lit zero kvs) zero = lit_at zero kvs i.
Proof.
  intros Hi. unfold keyed_lit.
  set (g := fun n => lit_at zero kvs (Z.of_nat n)).
  assert (Hlt : (Z.to_nat i < Z.to_nat (lit_len kvs))%nat) by lia.
  rewrite (nth_indep _ zero (g 0%nat))
    by now rewrite length_map, length_seq.
  rewrite map_nth, seq_nth by exact Hlt.
  unfold g. simpl. now rewrite Z2Nat.id by lia.
Qed.

(** Indexing a literal: inside its length the element the literal gives
    that position, outside the panic. *)
Lemma index_keyed_lit kvs i :
  index zero (keyed_lit zero kvs) i =
  if (0 <=? i) && (i <? lit_len kvs)
  then Returned (lit_at zero kvs i)
  else Panicked (IndexOutOfRange i (lit_len kvs)).
Proof.
  unfold index. rewrite len_keyed_lit.
  destruct (Z.leb_spec 0 i), (Z.ltb_spec i (lit_len kvs)); simpl; try reflexivity.
  now rewrite nth_keyed_lit by lia.
Qed.

Lemma index_in_range kvs i :
  0 <= i < lit_len kvs ->
  index zero (keyed_lit zero kvs) i = Returned (lit_at zero kvs i).
Proof.
  intros Hi. rewrite index_keyed_lit.
  destruct (Z.leb_spec 0 i), (Z.ltb_spec i (lit_len kvs)); try lia.
  reflexivity.
Qed.

Lemma index_key kvs k v :
  valid_keys kvs -> In (k, v) kvs ->
  index zero (keyed_lit zero kvs) k = Returned v.
Proof.
  intros [Hnd Hpos] Hin.
  rewrite index_keyed_lit.
  pose proof (lit_len_above _ _ _ Hin) as Hlt.
  rewrite Forall_forall in Hpos. specialize (Hpos _ Hin). simpl in Hpos.
  destruct (Z.leb_spec 0 k), (Z.ltb_spec k (lit_len kvs)); try lia. simpl.
  now rewrite (lit_at_key _ _ _ Hnd Hin).
Qed.

(** Every element of a literal is one of its values or the zero value. *)
Lemma lit_at_cases kvs i :
  lit_at zero kvs i = zero \/ In (lit_at zero kvs i) (map snd kvs).
Proof.
  unfold lit_at.
  destruct (find (fun kv => fst kv =? i) kvs) as [kv|] eqn:Hf; [right|now left].
  apply find_some in Hf. now apply in_map.
Qed.

Lemma index_inv kvs i v :
  index zero (keyed_lit zero kvs) i = Returned v ->
  0 <= i < lit_len kvs /\ (v = zero \/ In v (map snd kvs)).
Proof.
  rewrite index_keyed_lit.
  destruct (Z.leb_spec 0 i), (Z.ltb_spec i (lit_len kvs)); simpl; try discriminate.
  intros [= <-]. split; [lia|apply lit_at_cases].
Qed.
End SliceFacts.

(** ** The attribute tables *)

Section TableFacts.
Context {LC : LevelConsts}.

Lemma boldcolors_keys : map fst boldcolors_lit = map fst colors_lit.
Proof. reflexivity. Qed.

Lemma valid_keys_fst {A} (kvs kvs' : list (Z * A)) :
  map fst kvs' = map fst kvs -> valid_keys kvs -> valid_keys kvs'.
Proof.
  intros Hk [Hnd Hpos]. split; [now rewrite Hk|].
  apply Forall_map in Hpos. rewrite <- Hk in Hpos.
  now apply Forall_map.
Qed.

Lemma colors_at k v :
  levels_wf -> In (k, v) colors_lit -> index 0 colors k = Returned v.
Proof. intros Hwf Hin. now apply index_key. Qed.

Lemma boldcolors_at k v :
  levels_wf -> In (k, v) boldcolors_lit -> index 0 boldcolors k = Returned v.
Proof.
  intros Hwf Hin. apply index_key; [|exact Hin].
  exact (valid_keys_fst _ _ boldcolors_keys Hwf).
Qed.

Lemma lit_lens_agree : lit_len boldcolors_lit = lit_len colors_lit.
Proof. reflexivity. Qed.

(** Whatever [colors] holds at an index fits the low three bits, so the
    conversion to [uintptr] leaves it as it is. *)
Lemma colors_entry_small level attr :
  index 0 colors level = Returned attr -> 0 <= attr < 8.
Proof.
  intros H. apply index_inv in H as [_ [-> | Hin]]; [lia|].
  simpl in Hin. unfold fgWhite, fgMagenta, fgRed, fgYellow, fgGreen, fgCyan in Hin.
  intuition lia.
Qed.

Lemma to_uintptr_small x : 0 <= x < 8 -> to_uintptr x = x.
Proof.
  intros Hx. unfold to_uintptr.
  apply Z.mod_small. change (2 ^ intSize) with 18446744073709551616. lia.
Qed.
End TableFacts.

(** ** One call of [Log], path by path *)

Ltac run_monad :=
  cbv [bind ret lift field emit history Formatted Output Call call_Fd use
       setConsoleTextAttribute];
  cbn [self trace fst snd].

Section LogFacts.
Context {LogRecord : Type} {LC : LevelConsts} {W : Collaborators LogRecord}.
Implicit Types (st : State LogRecord) (rec : LogRecord).
Implicit Types (level : Level) (calldepth : Z).

Lemma Buffer_roundtrip (s : string) :
  Buffer_String (Buffer_Write Buffer_zero (bytes_of s)) = s.
Proof.
  unfold Buffer_String, Buffer_Write, Buffer_zero, bytes_of. simpl.
  apply string_of_list_byte_of_string.
Qed.

Lemma color_path_spec st :
  color_path st = (Returned (colorable (self st)), st).
Proof.
  unfold color_path, colorable. run_monad.
  destruct (Color (self st)); [|reflexivity].
  now destruct (f (self st)).
Qed.

Lemma colorable_false b :
  colorable b = false <-> Color b = false \/ f b = None.
Proof.
  unfold colorable. destruct (Color b), (f b); simpl; intuition congruence.
Qed.

Lemma colorable_true b :
  colorable b = true <-> Color b = true /\ exists fl, f b = Some fl.
Proof.
  unfold colorable. destruct (Color b), (f b) as [fl|]; simpl; split;
    try (intros [? [? ?]]); try intros ?; try congruence; eauto.
Qed.

(** The path without colour: format, then write. *)
Lemma Log_plain level calldepth rec st :
  colorable (self st) = false ->
  Log level calldepth rec st =
  (Returned (output_result (trace st ++ [EvFormatted rec (int_add calldepth 1)])
               (Logger (self st)) (int_add calldepth 2)
               (formatted_text rec (int_add calldepth 1))),
   {| self := self st;
      trace := trace st ++
               [EvFormatted rec (int_add calldepth 1);
                EvOutput (Logger (self st)) (int_add calldepth 2)
                  (formatted_text rec (int_add calldepth 1))] |}).
Proof.
  intros Hc. unfold Log, bind at 1.
  rewrite color_path_spec, Hc. run_monad.
  now rewrite <- app_assoc.
Qed.

(** The path with colour, the level inside the table: set, format, write,
    reset. *)
Lemma Log_colored level calldepth rec st fl attr :
  Color (self st) = true ->
  f (self st) = Some fl ->
  index 0 colors level = Returned attr ->
  Log level calldepth rec st =
  (Returned (output_result
               (trace st ++ [EvCall (Fd fl) (to_uintptr attr) 0;
                             EvFormatted rec (int_add calldepth 1)])
               (Logger (self st)) (int_add calldepth 2)
               (formatted_text rec (int_add calldepth 1))),
   {| self := self st;
      trace := trace st ++
               [EvCall (Fd fl) (to_uintptr attr) 0;
                EvFormatted rec (int_add calldepth 1);
                EvOutput (Logger (self st)) (int_add calldepth 2)
                  (formatted_text rec (int_add calldepth 1));
                EvCall (Fd fl) (to_uintptr fgWhite) 0] |}).
Proof.
  intros Hc Hf Hi. unfold Log, bind at 1.
  rewrite color_path_spec.
  replace (colorable (self st)) with true
    by (symmetry; apply colorable_true; eauto).
  run_monad. rewrite Hf, Hi. cbn [self trace].
  destruct (call_result (trace st) (Fd fl) (to_uintptr attr) 0) as [[r1 r2] e1].
  cbn [self trace]. rewrite Hf. rewrite Buffer_roundtrip.
  destruct (call_result _ (Fd fl) (to_uintptr fgWhite) 0) as [[r1' r2'] e2].
  cbn [self trace]. rewrite <- !app_assoc. reflexivity.
Qed.

(** The path with colour, the level outside the table: the index panics
    before any call is made. *)
Lemma Log_out_of_range level calldepth rec st p :
  colorable (self st) = true ->
  index 0 colors level = Panicked p ->
  Log level calldepth rec st = (Panicked p, st).
Proof.
  intros Hc Hi. unfold Log, bind at 1.
  rewrite color_path_spec, Hc. run_monad. now rewrite Hi.
Qed.

(** Whichever path is taken, the receiver comes out as it went in. *)
Lemma Log_self level calldepth rec st :
  self (snd (Log level calldepth rec st)) = self st.
Proof.
  destruct (colorable (self st)) eqn:Hc.
  - destruct (proj1 (colorable_true _) Hc) as [Hcol [fl Hf]].
    destruct (index 0 colors level) as [attr | p] eqn:Hi.
    + now rewrite (Log_colored _ calldepth rec _ _ _ Hcol Hf Hi).
    + now rewrite (Log_out_of_range _ calldepth rec _ _ Hc Hi).
  - now rewrite (Log_plain _ _ _ _ Hc).
Qed.

Lemma events_of_app {A} (m : M LogRecord A) st o b new :
  m st = (o, {| self := b; trace := trace st ++ new |}) ->
  events_of m st = new.
Proof.
  intros H. unfold events_of. rewrite H. cbn [snd trace].
  rewrite skipn_app, skipn_all, Nat.sub_diag. reflexivity.
Qed.

Lemma events_of_same {A} (m : M LogRecord A) st o :
  m st = (o, st) -> events_of m st = [].
Proof.
  intros H. unfold events_of. rewrite H. cbn [snd]. apply skipn_all.
Qed.
End LogFacts.

(** ** The demo world is a legal one *)

Lemma Demo_levels_wf : @levels_wf Demo.levels.
Proof.
  split.
  - cbn. repeat constructor; cbn; intuition discriminate.
  - cbn. repeat constructor; cbn; lia.
Qed.

(** ** The tables at the defined levels *)

Section DefinedLevels.
Context {LC : LevelConsts}.

Lemma defined_level_entry (l : Level) :
  In l defined_levels -> exists v, In (l, v) colors_lit.
Proof.
  cbn. intros H.
  repeat (destruct H as [<- | H]; [eexists; cbn; eauto 10|]).
  contradiction.
Qed.

Lemma defined_level_in_range (l : Level) :
  levels_wf -> In l defined_levels -> 0 <= l < lit_len colors_lit.
Proof.
  intros [_ Hpos] Hin. destruct (defined_level_entry l Hin) as [v Hv].
  split.
  - rewrite Forall_forall in Hpos. exact (Hpos _ Hv).
  - exact (lit_len_above _ _ _ Hv).
Qed.

Ltac table_case c :=
  exists c; repeat split;
  [ apply colors_at; [assumption | cbn; auto 10]
  | discriminate
  | apply boldcolors_at; [assumption | cbn; auto 10]
  | discriminate ].

(** C4: for each of the six levels the framework defines, [colors] and
    [boldcolors] hold an entry at that index, neither entry is zero, and the
    bold entry is the plain one with the intensity bit OR'd in. *)
Theorem tables_defined_for_every_level (l : Level) :
  levels_wf ->
  In l defined_levels ->
  exists c,
    index 0 colors l = Returned c /\
    c <> 0 /\
    index 0 boldcolors l = Returned (Z.lor c fgIntensity) /\
    Z.lor c fgIntensity <> 0.
Proof.
  intros Hwf Hin. cbn in Hin.
  destruct Hin as [<- | [<- | [<- | [<- | [<- | [<- | []]]]]]].
  - table_case fgCyan.
  - table_case fgGreen.
  - table_case fgYellow.
  - table_case fgRed.
  - table_case fgMagenta.
  - table_case fgWhite.
Qed.
End DefinedLevels.

(** C4 at the ERROR level of the demo world: red, and bright red. *)
Lemma tables_defined_for_every_level_witness :
  exists c,
    index 0 (@colors Demo.levels) 1 = Returned c /\
    c <> 0 /\
    index 0 (@boldcolors Demo.levels) 1 = Returned (Z.lor c fgIntensity) /\
    Z.lor c fgIntensity <> 0.
Proof.
  apply (@tables_defined_for_every_level Demo.levels 1).
  - exact Demo_levels_wf.
  - cbn. auto 10.
Defined.

(** ** [checkError] and [setConsoleTextAttribute] *)

Section PlatformCall.
Context {LogRecord : Type} {W : Collaborators LogRecord}.

Lemma setConsoleTextAttribute_spec (fl : file) (attribute : word)
    (st : State LogRecord) :
  setConsoleTextAttribute (Some fl) attribute st =
  (let '(r1, r2, err) :=
     call_result (trace st) (Fd fl) (to_uintptr attribute) 0 in
   Returned (checkError r1 r2 err),
   {| self := self st;
      trace := trace st ++ [EvCall (Fd fl) (to_uintptr attribute) 0] |}).
Proof.
  run_monad.
  now destruct (call_result (trace st) (Fd fl) (to_uintptr attribute) 0)
    as [[r1 r2] err].
Qed.

(** C9: [checkError] answers [nil] exactly when the platform call reported
    success ([r1 != 0]); for a failed call that came with no error value it
    answers [syscall.EINVAL]; hence [setConsoleTextAttribute], which returns
    what [checkError] makes of the platform's answer, never returns [nil]
    for a failed call. *)
Theorem checkError_nil_iff_success :
  (forall r1 r2 err, checkError r1 r2 err = None <-> r1 <> 0) /\
  (forall r2, checkError 0 r2 None = Some EINVAL) /\
  (forall (fl : file) (attribute : word) (st : State LogRecord),
      let '(r1, r2, err) :=
        call_result (trace st) (Fd fl) (to_uintptr attribute) 0 in
      fst (setConsoleTextAttribute (Some fl) attribute st)
      = Returned (checkError r1 r2 err)
      /\ (r1 = 0 -> checkError r1 r2 err <> None)).
Proof.
  assert (Hiff : forall r1 r2 err, checkError r1 r2 err = None <-> r1 <> 0).
  { intros r1 r2 err. unfold checkError.
    destruct (Z.eqb_spec r1 0) as [-> | Hne]; cbn.
    - destruct err; split; [discriminate | congruence | discriminate | congruence].
    - tauto. }
  split; [exact Hiff|]. split; [reflexivity|].
  intros fl attribute st. rewrite setConsoleTextAttribute_spec.
  destruct (call_result (trace st) (Fd fl) (to_uintptr attribute) 0)
    as [[r1 r2] err].
  split; [reflexivity|].
  intros -> Hnil. now apply Hiff in Hnil.
Qed.
End PlatformCall.

(** ** The claims about [Log] *)

Section LogClaims.
Context {LogRecord : Type} {LC : LevelConsts} {W : Collaborators LogRecord}.
Implicit Types (st : State LogRecord) (rec : LogRecord).
Implicit Types (level : Level) (calldepth : Z).

(** C1, amended: when [Color] is set, the cached handle is there and the
    level indexes inside [colors], one call of [Log] makes exactly these calls
    in this order: one attribute call with the level's entry of [colors],
    the formatter, the write, one attribute call with [fgWhite]; whatever
    the write answers. *)
Theorem Log_brackets_the_write level calldepth rec st fl attr :
  Color (self st) = true ->
  f (self st) = Some fl ->
  index 0 colors level = Returned attr ->
  trace (snd (Log level calldepth rec st)) =
  trace st ++
  [ EvCall (Fd fl) attr 0;
    EvFormatted rec (int_add calldepth 1);
    EvOutput (Logger (self st)) (int_add calldepth 2)
      (formatted_text rec (int_add calldepth 1));
    EvCall (Fd fl) fgWhite 0 ]
  /\ attribute_calls (events_of (Log level calldepth rec) st) =
     [ (Fd fl, attr, 0); (Fd fl, fgWhite, 0) ].
Proof.
  intros Hc Hf Hi.
  pose proof (Log_colored level calldepth rec st fl attr Hc Hf Hi) as H.
  rewrite (to_uintptr_small attr) in H by exact (colors_entry_small _ _ Hi).
  rewrite (to_uintptr_small fgWhite) in H by (unfold fgWhite; lia).
  rewrite (events_of_app _ _ _ _ _ H), H. split; reflexivity.
Qed.

(** C3: when [Color] is off or no handle is cached, [Log] formats the
    record, hands the text to [Logger.Output] and returns what that
    returned; it makes no attribute call. *)
Theorem Log_plain_path level calldepth rec st :
  Color (self st) = false \/ f (self st) = None ->
  Log level calldepth rec st =
  (Returned (output_result (trace st ++ [EvFormatted rec (int_add calldepth 1)])
               (Logger (self st)) (int_add calldepth 2)
               (formatted_text rec (int_add calldepth 1))),
   {| self := self st;
      trace := trace st ++
               [EvFormatted rec (int_add calldepth 1);
                EvOutput (Logger (self st)) (int_add calldepth 2)
                  (formatted_text rec (int_add calldepth 1))] |})
  /\ attribute_calls (events_of (Log level calldepth rec) st) = [].
Proof.
  intros Hc. apply colorable_false in Hc.
  pose proof (Log_plain level calldepth rec st Hc) as H.
  split; [exact H|].
  now rewrite (events_of_app _ _ _ _ _ H).
Qed.

(** C10: [Log] leaves the receiver as it found it: [Logger], [Color] and
    [f] are the same after the call, for every level, record and outcome of
    the write, and also when the call panics. *)
Theorem Log_preserves_backend level calldepth rec st :
  self (snd (Log level calldepth rec st)) = self st
  /\ Logger (self (snd (Log level calldepth rec st))) = Logger (self st)
  /\ Color (self (snd (Log level calldepth rec st))) = Color (self st)
  /\ f (self (snd (Log level calldepth rec st))) = f (self st).
Proof.
  pose proof (Log_self level calldepth rec st) as H.
  rewrite H. repeat split.
Qed.

(** C5, amended: a call of [Log] that returns has invoked the formatter
    exactly once, with the record and [calldepth + 1] (in [int] arithmetic,
    which is [calldepth + 1] unless [calldepth] is the largest [int]), and
    the text it wrote is the formatter's text at that depth; a call that
    panics on the table has not invoked the formatter. *)
Theorem Log_formats_one_frame_up level calldepth rec st :
  formatter_calls (events_of (Log level calldepth rec) st) =
    match fst (Log level calldepth rec st) with
    | Returned _ => [(rec, int_add calldepth 1)]
    | Panicked _ => []
    end
  /\ written_texts (events_of (Log level calldepth rec) st) =
    match fst (Log level calldepth rec st) with
    | Returned _ => [formatted_text rec (int_add calldepth 1)]
    | Panicked _ => []
    end
  /\ (- 2 ^ 63 <= calldepth < 2 ^ 63 - 1 -> int_add calldepth 1 = calldepth + 1).
Proof.
  split; [|split].
  3: { intros Hr. unfold int_add, wrap_int.
       change (2 ^ (intSize - 1)) with (2 ^ 63).
       change (2 ^ intSize) with (2 * 2 ^ 63).
       rewrite Z.mod_small; lia. }
  all: destruct (colorable (self st)) eqn:Hc;
    [ destruct (proj1 (colorable_true _) Hc) as [Hcol [fl Hf]];
      destruct (index 0 colors level) as [attr | p] eqn:Hi;
      [ pose proof (Log_colored level calldepth rec st fl attr Hcol Hf Hi) as H;
        rewrite (events_of_app _ _ _ _ _ H), H
      | pose proof (Log_out_of_range level calldepth rec st p Hc Hi) as H;
        rewrite (events_of_same _ _ _ H), H ]
    | pose proof (Log_plain level calldepth rec st Hc) as H;
      rewrite (events_of_app _ _ _ _ _ H), H ];
    reflexivity.
Qed.
End LogClaims.

(** ** Colour on, colour off *)

Section Toggle.
Context {LogRecord : Type} {LC : LevelConsts} {W : Collaborators LogRecord}.
Implicit Types (rec : LogRecord) (level : Level) (calldepth : Z).
Implicit Types (b : LogBackend) (tr : list (event LogRecord)).

(** C6, amended: for a backend with a cached handle and a level that
    indexes inside [colors], the call with [Color] set and the call with
    [Color] cleared write the same text; striking the two attribute calls
    out of the first call's trace gives the second call's trace. *)
Theorem Log_same_text_either_way level calldepth rec b tr fl attr :
  f b = Some fl ->
  index 0 colors level = Returned attr ->
  written_texts (events_of (Log level calldepth rec) (at_color b true tr))
  = written_texts (events_of (Log level calldepth rec) (at_color b false tr))
  /\ written_texts (events_of (Log level calldepth rec) (at_color b false tr))
     = [formatted_text rec (int_add calldepth 1)]
  /\ without_calls (events_of (Log level calldepth rec) (at_color b true tr))
     = events_of (Log level calldepth rec) (at_color b false tr)
  /\ attribute_calls (events_of (Log level calldepth rec) (at_color b true tr))
     = [(Fd fl, attr, 0); (Fd fl, fgWhite, 0)]
  /\ attribute_calls (events_of (Log level calldepth rec) (at_color b false tr))
     = [].
Proof.
  intros Hf Hi.
  assert (Hon : Log level calldepth rec (at_color b true tr) = _)
    by (apply (Log_colored level calldepth rec (at_color b true tr) fl attr);
        [reflexivity | exact Hf | exact Hi]).
  assert (Hoff : Log level calldepth rec (at_color b false tr) = _)
    by (apply Log_plain; reflexivity).
  rewrite (events_of_app _ _ _ _ _ Hon), (events_of_app _ _ _ _ _ Hoff).
  rewrite (to_uintptr_small attr) by exact (colors_entry_small _ _ Hi).
  rewrite (to_uintptr_small fgWhite) by (unfold fgWhite; lia).
  repeat split.
Qed.
End Toggle.

(** ** The lifetime of a backend *)

Section Lifetime.
Context {LogRecord : Type} {LC : LevelConsts} {W : Collaborators LogRecord}.
Implicit Types (st : State LogRecord) (ops : list (@op LogRecord)).

Lemma run_op_keeps_f (o : @op LogRecord) st :
  f (self (run_op o st)) = f (self st).
Proof.
  destruct o as [level calldepth rec | v]; cbn [run_op].
  - now rewrite Log_self.
  - reflexivity.
Qed.

Lemma run_ops_keeps_f ops st :
  f (self (run_ops ops st)) = f (self st).
Proof.
  revert st. induction ops as [|o ops IH]; intros st; [reflexivity|].
  cbn [run_ops fold_left]. fold (run_ops ops (run_op o st)).
  now rewrite IH, run_op_keeps_f.
Qed.

(** C7: [NewLogBackend] sets [f] to what the type assertion [out.(file)]
    gives, which is a handle exactly when the writer has an [Fd] method; no
    sequence of [Log] calls and [Color] assignments afterwards changes [f]. *)
Theorem handle_cached_at_construction (out : Writer) (prefix : string)
    (flag : Z) ops (tr : list (event LogRecord)) :
  f (NewLogBackend out prefix flag) = fst (assert_file out)
  /\ (f (NewLogBackend out prefix flag) <> None <-> exists fl, out = fileWriter fl)
  /\ f (self (run_ops ops {| self := NewLogBackend out prefix flag; trace := tr |}))
     = f (NewLogBackend out prefix flag).
Proof.
  split; [|split].
  - now destruct out.
  - destruct out as [| name | fl]; cbn; split; intros H.
    + now contradiction H.
    + destruct H as [fl H]. discriminate H.
    + now contradiction H.
    + destruct H as [fl H]. discriminate H.
    + now exists fl.
    + discriminate.
  - now rewrite run_ops_keeps_f.
Qed.

(** C8: each of the six defined levels indexes inside [colors] and inside
    [boldcolors], so the index expression in [Log] yields an attribute and
    [Log] returns rather than panics. *)
Theorem defined_levels_index_in_bounds (l : Level) :
  levels_wf ->
  In l defined_levels ->
  0 <= l < len colors
  /\ 0 <= l < len boldcolors
  /\ (exists attr, index 0 colors l = Returned attr)
  /\ (exists attr, index 0 boldcolors l = Returned attr)
  /\ forall calldepth rec st,
      exists err, fst (Log l calldepth rec st) = Returned err.
Proof.
  intros Hwf Hin.
  pose proof (defined_level_in_range l Hwf Hin) as Hr.
  assert (Hc : exists attr, index 0 colors l = Returned attr).
  { exists (lit_at 0 colors_lit l). now apply index_in_range. }
  assert (Hb : exists attr, index 0 boldcolors l = Returned attr).
  { exists (lit_at 0 boldcolors_lit l). apply index_in_range. exact Hr. }
  assert (Hlc : len colors = lit_len colors_lit) by apply len_keyed_lit.
  assert (Hlb : len boldcolors = lit_len colors_lit)
    by exact (len_keyed_lit 0 boldcolors_lit).
  rewrite Hlc, Hlb.
  repeat split; try apply Hr; try assumption.
  intros calldepth rec st. destruct Hc as [attr Hi].
  destruct (colorable (self st)) eqn:Hcol.
  - destruct (proj1 (colorable_true _) Hcol) as [Hcolor [fl Hf]].
    rewrite (Log_colored l calldepth rec st fl attr Hcolor Hf Hi). cbn. eauto.
  - rewrite (Log_plain l calldepth rec st Hcol). cbn. eauto.
Qed.
End Lifetime.

(** ** Runs in the demo world *)

Local Open Scope string_scope.

(** C1 at ERROR on a console whose writes and attribute calls all fail: red
    before the write, white after it. *)
Lemma Log_brackets_the_write_witness :
  trace (snd (@Log _ Demo.levels Demo.broken 1 0 "boom" (start Demo.colored))) =
  ([] ++
   [ EvCall 7 fgRed 0;
     EvFormatted "boom" (int_add 0 1);
     EvOutput (Logger Demo.colored) (int_add 0 2)
       (Demo.format "boom" (int_add 0 1));
     EvCall 7 fgWhite 0 ])%list
  /\ attribute_calls
       (events_of (@Log _ Demo.levels Demo.broken 1 0 "boom") (start Demo.colored))
     = [ (7, fgRed, 0); (7, fgWhite, 0) ].
Proof.
  apply (@Log_brackets_the_write string Demo.levels Demo.broken
           1 0 "boom" (start Demo.colored) Demo.stdout fgRed);
    reflexivity.
Defined.

(** C1 as stated fails outside the table: with [Color] set and the handle
    cached, [Log] at level 6 (one past the six entries) and at level -1
    panics on [colors[level]], having made no attribute call and no write. *)
Lemma Log_level_past_table_makes_no_call :
  Color Demo.colored = true
  /\ f Demo.colored = Some Demo.stdout
  /\ @Log _ Demo.levels Demo.console 6 0 "boom" (start Demo.colored)
     = (Panicked (IndexOutOfRange 6 6), start Demo.colored)
  /\ attribute_calls
       (events_of (@Log _ Demo.levels Demo.console 6 0 "boom") (start Demo.colored))
     = []
  /\ @Log _ Demo.levels Demo.console (-1) 0 "boom" (start Demo.colored)
     = (Panicked (IndexOutOfRange (-1) 6), start Demo.colored)
  /\ attribute_calls
       (events_of (@Log _ Demo.levels Demo.console (-1) 0 "boom") (start Demo.colored))
     = [].
Proof. repeat split. Qed.

(** C3 on a pipe, with [Color] set but no handle cached. *)
Lemma Log_plain_path_witness :
  @Log _ Demo.levels Demo.broken 2 0 "boom" (start Demo.piped) =
  (Returned (Some (errorString "write: broken pipe")),
   {| self := Demo.piped;
      trace := ([] ++
                [EvFormatted "boom" (int_add 0 1);
                 EvOutput (Logger Demo.piped) (int_add 0 2)
                   (Demo.format "boom" (int_add 0 1))])%list |})
  /\ attribute_calls
       (events_of (@Log _ Demo.levels Demo.broken 2 0 "boom") (start Demo.piped))
     = [].
Proof.
  apply (@Log_plain_path string Demo.levels Demo.broken 2 0 "boom" (start Demo.piped)).
  right. reflexivity.
Defined.

(** C5 as stated fails at call depth 0: the formatter is invoked at depth
    1, never at depth 0, and the text written is the one of depth 1. *)
Lemma Log_formats_at_depth_one_not_zero :
  formatter_calls
    (events_of (@Log _ Demo.levels Demo.console 2 0 "boom") (start Demo.plain))
  = [("boom", 1)]
  /\ ~ In ("boom", 0)
       (formatter_calls
          (events_of (@Log _ Demo.levels Demo.console 2 0 "boom") (start Demo.plain)))
  /\ written_texts
       (events_of (@Log _ Demo.levels Demo.console 2 0 "boom") (start Demo.plain))
     = ["main.go boom"]
  /\ Demo.format "boom" 0 = "log.go boom".
Proof.
  repeat split.
  intros [H | []]. discriminate H.
Qed.

(** C6 at WARNING on the console. *)
Lemma Log_same_text_either_way_witness :
  written_texts
    (events_of (@Log _ Demo.levels Demo.console 2 0 "boom") (at_color Demo.plain true []))
  = written_texts
      (events_of (@Log _ Demo.levels Demo.console 2 0 "boom") (at_color Demo.plain false []))
  /\ written_texts
       (events_of (@Log _ Demo.levels Demo.console 2 0 "boom") (at_color Demo.plain false []))
     = [Demo.format "boom" (int_add 0 1)]
  /\ without_calls
       (events_of (@Log _ Demo.levels Demo.console 2 0 "boom") (at_color Demo.plain true []))
     = events_of (@Log _ Demo.levels Demo.console 2 0 "boom") (at_color Demo.plain false [])
  /\ attribute_calls
       (events_of (@Log _ Demo.levels Demo.console 2 0 "boom") (at_color Demo.plain true []))
     = [(7, fgYellow, 0); (7, fgWhite, 0)]
  /\ attribute_calls
       (events_of (@Log _ Demo.levels Demo.console 2 0 "boom") (at_color Demo.plain false []))
     = [].
Proof.
  apply (@Log_same_text_either_way string Demo.levels Demo.console
           2 0 "boom" Demo.plain [] Demo.stdout fgYellow);
    reflexivity.
Defined.

(** C6 as stated fails outside the table: with [Color] set the call at
    level 6 (and at level -1) writes nothing, with [Color] cleared it writes
    the text. *)
Lemma Log_level_past_table_writes_nothing :
  written_texts
    (events_of (@Log _ Demo.levels Demo.console 6 0 "boom") (at_color Demo.plain true []))
  = []
  /\ written_texts
       (events_of (@Log _ Demo.levels Demo.console 6 0 "boom") (at_color Demo.plain false []))
     = ["main.go boom"]
  /\ written_texts
       (events_of (@Log _ Demo.levels Demo.console (-1) 0 "boom") (at_color Demo.plain true []))
     = []
  /\ written_texts
       (events_of (@Log _ Demo.levels Demo.console (-1) 0 "boom") (at_color Demo.plain false []))
     = ["main.go boom"].
Proof. repeat split. Qed.

(** C8 at DEBUG, the last index of the table. *)
Lemma defined_levels_index_in_bounds_witness :
  0 <= 5 < len (@colors Demo.levels)
  /\ 0 <= 5 < len (@boldcolors Demo.levels)
  /\ (exists attr, index 0 (@colors Demo.levels) 5 = Returned attr)
  /\ (exists attr, index 0 (@boldcolors Demo.levels) 5 = Returned attr)
  /\ forall calldepth rec st,
      exists err,
        fst (@Log string Demo.levels Demo.console 5 calldepth rec st) = Returned err.
Proof.
  apply (@defined_levels_index_in_bounds string Demo.levels Demo.console 5).
  - exact Demo_levels_wf.
  - cbn. auto 10.
Defined.

(** * Further properties of the backend *)

Local Open Scope list_scope.

(** ** The three ways a call of [Log] can go *)

Section Paths.
Context {LogRecord : Type} {LC : LevelConsts} {W : Collaborators LogRecord}.
Implicit Types (st : State LogRecord) (rec : LogRecord).
Implicit Types (level : Level) (calldepth : Z).

Lemma index_colors level :
  index 0 colors level =
  if in_table level
  then Returned (nth (Z.to_nat level) colors 0)
  else Panicked (IndexOutOfRange level (len colors)).
Proof. reflexivity. Qed.

Lemma Log_paths level calldepth rec st : Log_path level calldepth rec st.
Proof.
  destruct (colorable (self st)) eqn:Hc.
  - destruct (proj1 (colorable_true _) Hc) as [Hcol [fl Hf]].
    pose proof (index_colors level) as Hi.
    destruct (in_table level) eqn:Ht.
    + pose proof (colors_entry_small _ _ Hi) as Hsmall.
      eapply path_colored; eauto.
      rewrite (Log_colored level calldepth rec st fl _ Hcol Hf Hi).
      unfold colored_run.
      rewrite (to_uintptr_small _ Hsmall).
      now rewrite (to_uintptr_small fgWhite) by (unfold fgWhite; lia).
    + eapply path_panic; eauto.
      now apply Log_out_of_range.
  - apply path_plain; [exact Hc|]. now apply Log_plain.
Qed.

Lemma attribute_calls_app (t1 t2 : list (event LogRecord)) :
  attribute_calls (t1 ++ t2) = attribute_calls t1 ++ attribute_calls t2.
Proof. apply flat_map_app. Qed.

Lemma written_texts_app (t1 t2 : list (event LogRecord)) :
  written_texts (t1 ++ t2) = written_texts t1 ++ written_texts t2.
Proof. apply flat_map_app. Qed.

Lemma output_loggers_app (t1 t2 : list (event LogRecord)) :
  output_loggers (t1 ++ t2) = output_loggers t1 ++ output_loggers t2.
Proof. apply flat_map_app. Qed.

Lemma run_ops_cons (o : @op LogRecord) ops st :
  run_ops (o :: ops) st = run_ops ops (run_op o st).
Proof. reflexivity. Qed.

Lemma run_op_keeps_Logger (o : @op LogRecord) st :
  Logger (self (run_op o st)) = Logger (self st).
Proof.
  destruct o as [level calldepth rec | v]; cbn [run_op].
  - now rewrite Log_self.
  - reflexivity.
Qed.
End Paths.

(** ** One call *)

Section OneCall.
Context {LogRecord : Type} {LC : LevelConsts} {W : Collaborators LogRecord}.
Implicit Types (st : State LogRecord) (rec : LogRecord).
Implicit Types (level : Level) (calldepth : Z).

(** X1: with [Color] set, a handle cached and a level that does not index
    inside [colors] (negative, or at least [len(colors)]), [Log] panics on
    [colors[level]] with the index-out-of-range panic for that level and
    that length, before it has made any call, and leaves the backend and
    the trace as they were. *)
Theorem Log_panics_outside_table level calldepth rec st :
  colorable (self st) = true ->
  in_table level = false ->
  Log level calldepth rec st
  = (Panicked (IndexOutOfRange level (len colors)), st).
Proof.
  intros Hc Ht.
  destruct (Log_paths level calldepth rec st)
    as [Hc' H | fl attr Hcol Hf Ht' Hi Hs H | fl Hcol Hf Ht' H].
  - congruence.
  - congruence.
  - exact H.
Qed.

(** X2: which calls [Log] makes, and with which arguments, depends on the
    receiver, the level, the call depth and the record only: not on what the
    sink or the console answer, and not on the calls made before. A failed
    attribute call therefore never cancels the write or the reset. *)
Theorem Log_calls_ignore_answers
    (o : list (event LogRecord) -> log_Logger -> Z -> string -> option error)
    (c : list (event LogRecord) -> Z -> Z -> Z -> Z * Z * option error)
    level calldepth rec (b : LogBackend) (tr tr' : list (event LogRecord)) :
  events_of (@Log _ LC (with_answers o c) level calldepth rec)
    {| self := b; trace := tr' |}
  = events_of (Log level calldepth rec) {| self := b; trace := tr |}.
Proof.
  set (st := {| self := b; trace := tr |}).
  set (st' := {| self := b; trace := tr' |}).
  destruct (colorable b) eqn:Hc.
  - destruct (proj1 (colorable_true _) Hc) as [Hcol [fl Hf]].
    destruct (index 0 colors level) as [attr | p] eqn:Hi.
    + rewrite (events_of_app _ _ _ _ _
                 (@Log_colored _ _ (with_answers o c) level calldepth rec st' fl attr Hcol Hf Hi)).
      rewrite (events_of_app _ _ _ _ _
                 (Log_colored level calldepth rec st fl attr Hcol Hf Hi)).
      reflexivity.
    + rewrite (events_of_same _ _ _
                 (@Log_out_of_range _ _ (with_answers o c) level calldepth rec st' p Hc Hi)).
      rewrite (events_of_same _ _ _
                 (Log_out_of_range level calldepth rec st p Hc Hi)).
      reflexivity.
  - rewrite (events_of_app _ _ _ _ _
               (@Log_plain _ _ (with_answers o c) level calldepth rec st' Hc)).
    rewrite (events_of_app _ _ _ _ _ (Log_plain level calldepth rec st Hc)).
    reflexivity.
Qed.

Lemma NewLogBackend_fields (out : Writer) (prefix : string) (flag : Z) :
  Logger (NewLogBackend out prefix flag) = log_New out prefix flag
  /\ Color (NewLogBackend out prefix flag) = false
  /\ f (NewLogBackend out prefix flag) = fst (assert_file out).
Proof. now destruct out. Qed.

(** X3: a backend fresh from [NewLogBackend] over a writer that is not
    [nil] has colour off: whatever the level, also one outside the table,
    [Log] on it returns the result of the write, makes no attribute call,
    and writes through the logger [log.New(out, prefix, flag)]. (Over a
    [nil] writer package log's [Output] unwinds instead of answering.) *)
Theorem fresh_backend_logs_without_colour (out : Writer) (prefix : string)
    (flag : Z) level calldepth rec (tr : list (event LogRecord)) :
  out <> nilWriter ->
  fst (Log level calldepth rec
         {| self := NewLogBackend out prefix flag; trace := tr |})
  = Returned (output_result (tr ++ [EvFormatted rec (int_add calldepth 1)])
                (log_New out prefix flag) (int_add calldepth 2)
                (formatted_text rec (int_add calldepth 1)))
  /\ events_of (Log level calldepth rec)
       {| self := NewLogBackend out prefix flag; trace := tr |}
     = [ EvFormatted rec (int_add calldepth 1);
         EvOutput (log_New out prefix flag) (int_add calldepth 2)
           (formatted_text rec (int_add calldepth 1)) ].
Proof.
  intros _.
  destruct (NewLogBackend_fields out prefix flag) as [HL [HC _]].
  set (st := {| self := NewLogBackend out prefix flag; trace := tr |}).
  assert (Hc : colorable (self st) = false)
    by (apply colorable_false; left; exact HC).
  pose proof (Log_plain level calldepth rec st Hc) as H.
  rewrite (events_of_app _ _ _ _ _ H), H.
  cbn [fst self trace st]. rewrite HL. split; reflexivity.
Qed.

Lemma int_add_succ (x : Z) : int_add (int_add x 1) 1 = int_add x 2.
Proof.
  unfold int_add, wrap_int.
  replace ((x + 1 + 2 ^ (intSize - 1)) mod 2 ^ intSize - 2 ^ (intSize - 1)
           + 1 + 2 ^ (intSize - 1))
    with ((x + 1 + 2 ^ (intSize - 1)) mod 2 ^ intSize + 1) by lia.
  rewrite Zplus_mod_idemp_l.
  f_equal. f_equal. lia.
Qed.

(** X11: the logger is always asked for the frame just above the one the
    formatter is asked for: in each call of [Log] the depth handed to
    [Logger.Output] is the depth handed to [Formatted] plus one, in [int]
    arithmetic, also when [calldepth + 1] or [calldepth + 2] overflows. *)
Theorem Log_output_depth_follows_formatter level calldepth rec st :
  output_depths (events_of (Log level calldepth rec) st)
  = map (fun d => int_add d 1)
      (formatter_depths (events_of (Log level calldepth rec) st)).
Proof.
  destruct (Log_paths level calldepth rec st)
    as [Hc H | fl attr Hcol Hf Ht Hi Hs H | fl Hcol Hf Ht H].
  - rewrite (events_of_app _ _ _ _ _ H). cbn. now rewrite int_add_succ.
  - rewrite (events_of_app _ _ _ _ _ H). cbn. now rewrite int_add_succ.
  - rewrite (events_of_same _ _ _ H). reflexivity.
Qed.
End OneCall.

(** ** Sequences of calls *)

Section ManyCalls.
Context {LogRecord : Type} {LC : LevelConsts} {W : Collaborators LogRecord}.
Implicit Types (st : State LogRecord) (ops : list (@op LogRecord)).

(** What one operation adds to the trace, path by path. *)
Lemma run_op_trace (o : @op LogRecord) st :
  trace (run_op o st) = trace st
  \/ (exists rec d d' s,
        trace (run_op o st)
        = trace st ++ [EvFormatted rec d; EvOutput (Logger (self st)) d' s])
  \/ (exists fl attr rec d d' s,
        f (self st) = Some fl /\ 0 <= attr < 8
        /\ trace (run_op o st)
           = trace st ++ [EvCall (Fd fl) attr 0; EvFormatted rec d;
                          EvOutput (Logger (self st)) d' s;
                          EvCall (Fd fl) fgWhite 0]).
Proof.
  destruct o as [level calldepth rec | v]; cbn [run_op]; [|now left].
  destruct (Log_paths level calldepth rec st)
    as [Hc H | fl attr Hcol Hf Ht Hi Hs H | fl Hcol Hf Ht H]; rewrite H.
  - right; left. now do 4 eexists.
  - right; right. exists fl, attr. do 4 eexists. repeat split; try eassumption; lia.
  - now left.
Qed.

(** X4: a backend without a cached handle never calls the console: through
    any sequence of [Log] calls and [Color] assignments, at any levels, the
    attribute calls of the trace stay what they were. *)
Theorem no_handle_no_console_call ops st :
  f (self st) = None ->
  attribute_calls (trace (run_ops ops st)) = attribute_calls (trace st).
Proof.
  revert st. induction ops as [|o ops IH]; intros st Hf; [reflexivity|].
  rewrite run_ops_cons, IH by now rewrite run_op_keeps_f.
  destruct (run_op_trace o st)
    as [-> | [(rec & d & d' & s & ->) | (fl & attr & rec & d & d' & s & Hfl & _)]].
  - reflexivity.
  - rewrite attribute_calls_app. cbn. now rewrite app_nil_r.
  - congruence.
Qed.

Lemma run_ops_brackets ops st fl :
  f (self st) = Some fl ->
  exists attrs,
    attribute_calls (trace (run_ops ops st))
    = attribute_calls (trace st) ++ flat_map (bracket (Fd fl)) attrs
    /\ Forall (fun a => 0 <= a < fgIntensity) attrs.
Proof.
  revert st. induction ops as [|o ops IH]; intros st Hf.
  - exists []. cbn. now rewrite app_nil_r.
  - rewrite run_ops_cons.
    destruct (IH (run_op o st)) as (attrs & Heq & Hall);
      [now rewrite run_op_keeps_f|].
    rewrite Heq.
    destruct (run_op_trace o st)
      as [-> | [(rec & d & d' & s & ->)
               | (fl' & attr & rec & d & d' & s & Hfl & Hs & ->)]].
    + now exists attrs.
    + exists attrs. rewrite attribute_calls_app. cbn. now rewrite app_nil_r.
    + assert (fl' = fl) as -> by congruence.
      exists (attr :: attrs). rewrite attribute_calls_app. cbn.
      rewrite <- app_assoc. split; [reflexivity|].
      constructor; [unfold fgIntensity; lia | exact Hall].
Qed.

Lemma last_brackets (fd : Z) (attrs : list word) :
  last (flat_map (bracket fd) attrs) (fd, fgWhite, 0) = (fd, fgWhite, 0).
Proof.
  induction attrs as [|a attrs IH]; [reflexivity|].
  cbn [flat_map bracket app]. cbn [flat_map bracket app] in IH.
  destruct (flat_map (bracket fd) attrs); [reflexivity | exact IH].
Qed.

(** X5: on a backend built over a file, through any sequence of [Log]
    calls and [Color] assignments, panics on the table included, the
    attribute calls [Log] makes come in pairs on that file's handle: a call
    asking for a colour below the intensity bit, then a call asking for
    [fgWhite]. The last attribute call made, if there is one, is therefore
    one that asks for [fgWhite]. This is about the calls made; what the
    console answers to them is dropped by [Log]. *)
Theorem attribute_calls_come_in_pairs (fl : file) (prefix : string)
    (flag : Z) ops :
  exists attrs,
    attribute_calls
      (trace (run_ops ops (start (NewLogBackend (fileWriter fl) prefix flag))))
    = flat_map (bracket (Fd fl)) attrs
    /\ Forall (fun a => 0 <= a < fgIntensity) attrs
    /\ last (attribute_calls
               (trace (run_ops ops
                         (start (NewLogBackend (fileWriter fl) prefix flag)))))
         (Fd fl, fgWhite, 0)
       = (Fd fl, fgWhite, 0).
Proof.
  destruct (run_ops_brackets ops
              (start (NewLogBackend (fileWriter fl) prefix flag)) fl eq_refl)
    as (attrs & Heq & Hall).
  exists attrs. cbn [start trace attribute_calls flat_map app] in Heq.
  rewrite Heq. repeat split; [exact Hall | apply last_brackets].
Qed.

(** X6: when every level of a sequence indexes inside [colors], the texts
    written are, in order, the formatter's text for each [Log] of the
    sequence at its call depth plus one, wherever [Color] was switched on or
    off in between and whatever the sink and the console answered. *)
Theorem writes_follow_the_calls ops st :
  forallb op_in_table ops = true ->
  written_texts (trace (run_ops ops st))
  = written_texts (trace st) ++ texts_of_ops ops.
Proof.
  revert st. induction ops as [|o ops IH]; intros st Hall.
  - cbn. now rewrite app_nil_r.
  - cbn [forallb] in Hall. apply andb_prop in Hall as [Ho Hall].
    rewrite run_ops_cons, (IH _ Hall).
    destruct o as [level calldepth rec | v]; cbn [run_op texts_of_ops flat_map].
    + cbn [op_in_table] in Ho.
      destruct (Log_paths level calldepth rec st)
        as [Hc H | fl attr Hcol Hf Ht Hi Hs H | fl Hcol Hf Ht H];
        [| | congruence]; rewrite H; cbn [snd plain_run colored_run trace];
        rewrite written_texts_app; cbn; now rewrite <- app_assoc.
    + reflexivity.
Qed.

(** X10: a trace is only ever extended, by at most four calls for each
    operation: nothing already recorded is dropped or rewritten. *)
Theorem trace_only_grows ops st :
  exists new,
    trace (run_ops ops st) = trace st ++ new
    /\ (List.length new <= 4 * List.length ops)%nat.
Proof.
  revert st. induction ops as [|o ops IH]; intros st.
  - exists []. cbn. now rewrite app_nil_r.
  - rewrite run_ops_cons. destruct (IH (run_op o st)) as (new & -> & Hlen).
    destruct (run_op_trace o st)
      as [-> | [(rec & d & d' & s & ->)
               | (fl & attr & rec & d & d' & s & _ & _ & ->)]].
    + exists new. split; [reflexivity | cbn [List.length]; lia].
    + eexists. rewrite <- app_assoc. split; [reflexivity|].
      rewrite length_app. cbn [List.length]. lia.
    + eexists. rewrite <- app_assoc. split; [reflexivity|].
      rewrite length_app. cbn [List.length]. lia.
Qed.

Lemma run_ops_keeps_Logger ops st :
  Logger (self (run_ops ops st)) = Logger (self st).
Proof.
  revert st. induction ops as [|o ops IH]; intros st; [reflexivity|].
  now rewrite run_ops_cons, IH, run_op_keeps_Logger.
Qed.

Lemma run_ops_loggers ops st :
  Forall (fun lg => lg = Logger (self st)) (output_loggers (trace st)) ->
  Forall (fun lg => lg = Logger (self st))
    (output_loggers (trace (run_ops ops st))).
Proof.
  revert st. induction ops as [|o ops IH]; intros st Hst; [exact Hst|].
  rewrite run_ops_cons, <- (run_op_keeps_Logger o st).
  apply IH. rewrite run_op_keeps_Logger.
  destruct (run_op_trace o st)
    as [-> | [(rec & d & d' & s & ->)
             | (fl & attr & rec & d & d' & s & _ & _ & ->)]].
  - exact Hst.
  - rewrite output_loggers_app. apply Forall_app. split; [exact Hst|].
    cbn. now constructor.
  - rewrite output_loggers_app. apply Forall_app. split; [exact Hst|].
    cbn. now constructor.
Qed.

(** X9: through any sequence of [Log] calls and [Color] assignments on a
    backend built by [NewLogBackend] (the [Logger] field is not assigned
    and the logger's output is not redirected in between), every write goes
    through the logger [log.New(out, prefix, flag)] built at construction,
    and a cached handle is that logger's own writer. *)
Theorem writes_and_colour_share_the_writer (out : Writer) (prefix : string)
    (flag : Z) ops :
  Forall (fun lg => lg = log_New out prefix flag)
    (output_loggers
       (trace (run_ops ops (start (NewLogBackend out prefix flag)))))
  /\ forall fl,
      f (self (run_ops ops (start (NewLogBackend out prefix flag)))) = Some fl ->
      log_out (Logger (self (run_ops ops (start (NewLogBackend out prefix flag)))))
      = fileWriter fl.
Proof.
  destruct (NewLogBackend_fields out prefix flag) as [HL [_ Hf]].
  split.
  - rewrite <- HL.
    apply (run_ops_loggers ops (start (NewLogBackend out prefix flag))).
    constructor.
  - intros fl. rewrite run_ops_keeps_f, run_ops_keeps_Logger.
    cbn [start self]. rewrite HL, Hf.
    destruct out; cbn; congruence.
Qed.
End ManyCalls.

(** ** The shape of the tables *)

Section TableShape.
Context {LC : LevelConsts}.

Lemma keyed_lit_Forall {A} (zero : A) (P : A -> Prop) (kvs : list (Z * A)) :
  P zero -> Forall P (map snd kvs) -> Forall P (keyed_lit zero kvs).
Proof.
  intros Hz Hall. unfold keyed_lit. apply Forall_map, Forall_forall.
  intros n _. destruct (lit_at_cases zero kvs (Z.of_nat n)) as [-> | Hin].
  - exact Hz.
  - rewrite Forall_forall in Hall. now apply Hall.
Qed.

Lemma colors_of_levels :
  levels_wf ->
  index 0 colors INFO = Returned fgWhite
  /\ index 0 colors CRITICAL = Returned fgMagenta
  /\ index 0 colors ERROR = Returned fgRed
  /\ index 0 colors WARNING = Returned fgYellow
  /\ index 0 colors NOTICE = Returned fgGreen
  /\ index 0 colors DEBUG = Returned fgCyan.
Proof.
  intros Hwf. repeat split; apply colors_at; try assumption; cbn; auto 10.
Qed.

(** X7: under the compiler's demands on the keys, two different defined
    levels have different entries in [colors]: each of the six levels has a
    colour of its own. *)
Theorem defined_levels_have_distinct_colours (l1 l2 : Level) :
  levels_wf ->
  In l1 defined_levels ->
  In l2 defined_levels ->
  l1 <> l2 ->
  index 0 colors l1 <> index 0 colors l2.
Proof.
  intros Hwf H1 H2 Hne He. apply Hne. clear Hne.
  destruct (colors_of_levels Hwf) as (HI & HC & HE & HW & HN & HD).
  cbn in H1, H2.
  destruct H1 as [<- | [<- | [<- | [<- | [<- | [<- | []]]]]]];
    destruct H2 as [<- | [<- | [<- | [<- | [<- | [<- | []]]]]]];
    try reflexivity;
    rewrite ?HI, ?HC, ?HE, ?HW, ?HN, ?HD in He;
    discriminate He.
Qed.

(** X8: no entry of [colors] or [boldcolors], at any index and for any
    level constants, has a bit outside the foreground mask [fgMask], and no
    entry of [colors] has the intensity bit: indexing the tables never
    yields an attribute that would touch the background colour. *)
Theorem tables_stay_in_the_foreground :
  Forall (fun a => Z.land a fgMask = a /\ Z.land a fgIntensity = 0) colors
  /\ Forall (fun a => Z.land a fgMask = a) boldcolors.
Proof.
  split; apply keyed_lit_Forall; cbn; repeat constructor.
Qed.
End TableShape.

(** ** The platform call *)

Section PlatformEdge.
Context {LogRecord : Type} {W : Collaborators LogRecord}.

(** X12: on a [nil] file [setConsoleTextAttribute] panics on [f.Fd()]
    before it reaches the platform; on a file it makes exactly one platform
    call, with the handle, the attribute and 0, and leaves the backend as it
    was; if the platform reports an error of its own with the call, that
    error is returned as it is when the call failed and dropped when it
    succeeded. *)
Theorem setConsoleTextAttribute_edges (attribute : word)
    (st : State LogRecord) :
  setConsoleTextAttribute None attribute st = (Panicked NilDereference, st)
  /\ forall fl,
      snd (setConsoleTextAttribute (Some fl) attribute st)
      = {| self := self st;
           trace := trace st ++ [EvCall (Fd fl) (to_uintptr attribute) 0] |}
      /\ forall e,
          snd (call_result (trace st) (Fd fl) (to_uintptr attribute) 0) = Some e ->
          fst (setConsoleTextAttribute (Some fl) attribute st)
          = Returned
              (if (fst (fst (call_result (trace st) (Fd fl)
                               (to_uintptr attribute) 0)) =? 0)%Z
               then Some e else None).
Proof.
  split; [reflexivity|]. intros fl.
  rewrite setConsoleTextAttribute_spec.
  destruct (call_result (trace st) (Fd fl) (to_uintptr attribute) 0)
    as [[r1 r2] err].
  split; [reflexivity|].
  intros e He. cbn in He. subst err. cbn [fst snd].
  unfold checkError. now destruct (r1 =? 0)%Z.
Qed.
End PlatformEdge.

(** ** The demo day *)

(** X4 on the pipe: a whole day, colour switched on in between and one
    level outside the table, without one console call. *)
Lemma no_handle_no_console_call_witness :
  attribute_calls
    (trace (@run_ops _ Demo.levels Demo.broken demo_day (start Demo.piped)))
  = attribute_calls (trace (@start string Demo.piped)).
Proof.
  apply (@no_handle_no_console_call string Demo.levels Demo.broken
           demo_day (start Demo.piped)).
  reflexivity.
Defined.

(** X6 on the console: three lines, the middle one in colour. *)
Lemma writes_follow_the_calls_witness :
  written_texts
    (trace (@run_ops _ Demo.levels Demo.console demo_day_in_table
              (start Demo.plain)))
  = written_texts (trace (@start string Demo.plain))
    ++ @texts_of_ops _ Demo.console demo_day_in_table.
Proof.
  apply (@writes_follow_the_calls string Demo.levels Demo.console
           demo_day_in_table (start Demo.plain)).
  reflexivity.
Defined.

(** X7 at ERROR and WARNING: red is not yellow. *)
Lemma defined_levels_have_distinct_colours_witness :
  1 <> 2
  /\ index 0 (@colors Demo.levels) 1 <> index 0 (@colors Demo.levels) 2.
Proof.
  split; [lia|].
  apply (@defined_levels_have_distinct_colours Demo.levels 1 2).
  - exact Demo_levels_wf.
  - cbn. auto 10.
  - cbn. auto 10.
  - lia.
Defined.

(** ** When [Log] returns, and what *)

Section Returns.
Context {LogRecord : Type} {LC : LevelConsts} {W : Collaborators LogRecord}.
Implicit Types (st : State LogRecord) (rec : LogRecord).
Implicit Types (level : Level) (calldepth : Z).

(** C2, amended: on a logger whose writer is not [nil], a call of [Log]
    with [Color] off, or no handle cached, or a level that indexes inside
    [colors], returns, and the value it returns is what [Logger.Output]
    answered to the one write of the call: [nil] or the write's error as it
    is. What the console answers to the attribute calls has no part in it:
    under any other answers [Log] returns that same value. (Over a [nil]
    writer package log's [Output] unwinds instead of answering; [Output]
    here does not show that, hence the first hypothesis.) *)
Theorem Log_returns_the_write_result level calldepth rec st :
  log_out (Logger (self st)) <> nilWriter ->
  Color (self st) = false \/ f (self st) = None \/ in_table level = true ->
  exists err,
    fst (Log level calldepth rec st) = Returned err
    /\ write_results (trace st) (events_of (Log level calldepth rec) st) = [err]
    /\ forall cr,
        fst (@Log _ LC (with_call_result W cr) level calldepth rec st)
        = Returned err.
Proof.
  intros _ Hpath.
  destruct (colorable (self st)) eqn:Hc.
  - destruct (proj1 (colorable_true _) Hc) as [Hcol [fl Hf]].
    assert (Ht : in_table level = true)
      by (destruct Hpath as [H | [H | H]]; congruence).
    pose proof (index_colors level) as Hi. rewrite Ht in Hi.
    pose proof (Log_colored level calldepth rec st fl _ Hcol Hf Hi) as H.
    eexists. split; [rewrite H; reflexivity|]. split.
    + rewrite (events_of_app _ _ _ _ _ H).
      cbn [write_results app]. now rewrite <- ?app_assoc.
    + intros cr.
      now rewrite (@Log_colored _ _ (with_call_result W cr)
                     level calldepth rec st fl _ Hcol Hf Hi).
  - pose proof (Log_plain level calldepth rec st Hc) as H.
    eexists. split; [rewrite H; reflexivity|]. split.
    + rewrite (events_of_app _ _ _ _ _ H).
      cbn [write_results app]. now rewrite <- ?app_assoc.
    + intros cr.
      now rewrite (@Log_plain _ _ (with_call_result W cr)
                     level calldepth rec st Hc).
Qed.
End Returns.

(** C2 at ERROR on a console whose attribute calls and writes all fail:
    [Log] returns the write's error, not the console's. *)
Lemma Log_returns_the_write_result_witness :
  exists err,
    fst (@Log _ Demo.levels Demo.broken 1 0 "boom" (start Demo.colored))
    = Returned err
    /\ @write_results _ Demo.broken (trace (@start string Demo.colored))
         (events_of (@Log _ Demo.levels Demo.broken 1 0 "boom")
            (start Demo.colored))
       = [err]
    /\ forall cr,
        fst (@Log _ Demo.levels (with_call_result Demo.broken cr) 1 0 "boom"
               (start Demo.colored))
        = Returned err.
Proof.
  apply (@Log_returns_the_write_result string Demo.levels Demo.broken
           1 0 "boom" (start Demo.colored)).
  - discriminate.
  - right. right. reflexivity.
Defined.

(** C2 as stated fails outside the table: with [Color] set and the handle
    cached, [Log] at level 6 and at level -1 returns no value at all, and
    there was no write whose result it could have been. *)
Lemma Log_level_past_table_returns_nothing :
  Color Demo.colored = true
  /\ f Demo.colored = Some Demo.stdout
  /\ fst (@Log _ Demo.levels Demo.console 6 0 "boom" (start Demo.colored))
     = Panicked (IndexOutOfRange 6 6)
  /\ @write_results _ Demo.console []
       (events_of (@Log _ Demo.levels Demo.console 6 0 "boom")
          (start Demo.colored))
     = []
  /\ fst (@Log _ Demo.levels Demo.console (-1) 0 "boom" (start Demo.colored))
     = Panicked (IndexOutOfRange (-1) 6)
  /\ @write_results _ Demo.console []
       (events_of (@Log _ Demo.levels Demo.console (-1) 0 "boom")
          (start Demo.colored))
     = [].
Proof. repeat split. Qed.

(** X1 one past the table and below it. *)
Lemma Log_panics_outside_table_witness :
  @Log _ Demo.levels Demo.console 6 0 "boom" (start Demo.colored)
  = (Panicked (IndexOutOfRange 6 (len (@colors Demo.levels))),
     start Demo.colored)
  /\ @Log _ Demo.levels Demo.console (-1) 0 "boom" (start Demo.colored)
     = (Panicked (IndexOutOfRange (-1) (len (@colors Demo.levels))),
        start Demo.colored).
Proof.
  split.
  - apply (@Log_panics_outside_table string Demo.levels Demo.console
             6 0 "boom" (start Demo.colored)); reflexivity.
  - apply (@Log_panics_outside_table string Demo.levels Demo.console
             (-1) 0 "boom" (start Demo.colored)); reflexivity.
Defined.

(** X3 on a fresh backend over the console, at a level outside the table. *)
Lemma fresh_backend_logs_without_colour_witness :
  fst (@Log _ Demo.levels Demo.console 9 0 "lost"
         {| self := NewLogBackend (fileWriter Demo.stdout) EmptyString 0;
            trace := [] |})
  = Returned (@output_result _ Demo.console
                ([] ++ [EvFormatted "lost" (int_add 0 1)])
                (log_New (fileWriter Demo.stdout) EmptyString 0) (int_add 0 2)
                (Demo.format "lost" (int_add 0 1)))
  /\ events_of (@Log _ Demo.levels Demo.console 9 0 "lost")
       {| self := NewLogBackend (fileWriter Demo.stdout) EmptyString 0;
          trace := [] |}
     = [ EvFormatted "lost" (int_add 0 1);
         EvOutput (log_New (fileWriter Demo.stdout) EmptyString 0)
           (int_add 0 2) (Demo.format "lost" (int_add 0 1)) ].
Proof.
  apply (@fresh_backend_logs_without_colour string Demo.levels Demo.console
           (fileWriter Demo.stdout) EmptyString 0 9 0 "lost" []).
  discriminate.
Defined.
